(** * AI Writing Assistant (main.py): shallow embedding and properties

    The program is a sequential console script: it validates an API key,
    probes the remote model once, reads the essay parameters, asks the model
    for the sections of the essay one after the other, and asks for feedback.

    The embedding follows the script function by function.  Console input,
    console output and the remote model are explicit: a run starts from a
    [World] (the lines still to be read on standard input and the number of
    remote calls already served) and yields an [Outcome], the world left and
    the list of [Event]s it emitted, in chronological order.

    A Python text is represented by the Rocq string of its UTF-8 encoding,
    one [ascii] per byte: equality, concatenation and prefixes of texts are
    those of their encodings.  [strip] removes every white-space character
    of Python, the non-ASCII ones included, through their encodings.
    [lower] is [str.lower] on the letters A-Z and leaves the encodings of
    the other characters as they are. *)

From Stdlib Require Import String Ascii List ZArith QArith Bool Lia.
From stdpp Require Import base gmap strings list.

Import ListNotations.
Local Open Scope string_scope.
Local Open Scope list_scope.

(** ** Python text *)

Module Py.

(** The characters [\n] and [\x1b] of the source's literals. *)
Definition nl : string := String "010"%char EmptyString.
Definition esc : string := String "027"%char EmptyString.

(** Two non-ASCII white-space characters, by their encodings: the no-break
    space U+00A0 and the ideographic space U+3000. *)
Definition nbsp : string := String "194"%char (String "160"%char EmptyString).
Definition ideographic_space : string :=
  String "227"%char (String "128"%char (String "128"%char EmptyString)).

(** The white-space characters of Python (those [str.isspace] accepts and
    [str.strip] removes), by the length of their UTF-8 encoding.

    One byte: U+0009-U+000D, U+001C-U+001F and the space U+0020. *)
Definition blank1 (c1 : ascii) : bool :=
  let n := nat_of_ascii c1 in
  ((9 <=? n)%nat && (n <=? 13)%nat)
  || ((28 <=? n)%nat && (n <=? 31)%nat)
  || (n =? 32)%nat.

(** Two bytes: U+0085 (C2 85) and U+00A0 (C2 A0). *)
Definition blank2 (c1 c2 : ascii) : bool :=
  let n1 := nat_of_ascii c1 in
  let n2 := nat_of_ascii c2 in
  (n1 =? 194)%nat && ((n2 =? 133)%nat || (n2 =? 160)%nat).

(** Three bytes: U+1680 (E1 9A 80), U+2000-U+200A (E2 80 80-8A),
    U+2028, U+2029 (E2 80 A8, A9), U+202F (E2 80 AF), U+205F (E2 81 9F)
    and U+3000 (E3 80 80). *)
Definition blank3 (c1 c2 c3 : ascii) : bool :=
  let n1 := nat_of_ascii c1 in
  let n2 := nat_of_ascii c2 in
  let n3 := nat_of_ascii c3 in
  ((n1 =? 225)%nat && (n2 =? 154)%nat && (n3 =? 128)%nat)
  || ((n1 =? 226)%nat && (n2 =? 128)%nat
      && (((128 <=? n3)%nat && (n3 <=? 138)%nat)
          || (n3 =? 168)%nat || (n3 =? 169)%nat || (n3 =? 175)%nat))
  || ((n1 =? 226)%nat && (n2 =? 129)%nat && (n3 =? 159)%nat)
  || ((n1 =? 227)%nat && (n2 =? 128)%nat && (n3 =? 128)%nat).

(** The text after its first character, when that one is white space. *)
Definition after_blank (s : string) : option string :=
  match s with
  | EmptyString => None
  | String c1 r1 =>
      if blank1 c1 then Some r1
      else match r1 with
           | EmptyString => None
           | String c2 r2 =>
               if blank2 c1 c2 then Some r2
               else match r2 with
                    | EmptyString => None
                    | String c3 r3 =>
                        if blank3 c1 c2 c3 then Some r3 else None
                    end
           end
  end.

(** [s.lstrip()] *)
Fixpoint lstrip (s : string) : string :=
  match s with
  | EmptyString => EmptyString
  | String c1 r1 =>
      if blank1 c1 then lstrip r1
      else match r1 with
           | EmptyString => s
           | String c2 r2 =>
               if blank2 c1 c2 then lstrip r2
               else match r2 with
                    | EmptyString => s
                    | String c3 r3 =>
                        if blank3 c1 c2 c3 then lstrip r3 else s
                    end
           end
  end.

(** A text made of white space only (the empty text included). *)
Fixpoint whitespace_only (s : string) : bool :=
  match s with
  | EmptyString => true
  | String c1 r1 =>
      if blank1 c1 then whitespace_only r1
      else match r1 with
           | EmptyString => false
           | String c2 r2 =>
               if blank2 c1 c2 then whitespace_only r2
               else match r2 with
                    | EmptyString => false
                    | String c3 r3 =>
                        if blank3 c1 c2 c3 then whitespace_only r3 else false
                    end
           end
  end.

(** [s.rstrip()]: the text is cut where what follows is white space only.
    No such cut falls inside a character, since no encoding of a white-space
    character starts with a continuation byte. *)
Fixpoint rstrip (s : string) : string :=
  match s with
  | EmptyString => EmptyString
  | String c r => if whitespace_only s then EmptyString else String c (rstrip r)
  end.

(** [s.strip()] *)
Definition strip (s : string) : string := rstrip (lstrip s).

Definition isupper (c : ascii) : bool :=
  let n := nat_of_ascii c in (65 <=? n)%nat && (n <=? 90)%nat.

Definition lower_char (c : ascii) : ascii :=
  if isupper c then ascii_of_nat (nat_of_ascii c + 32) else c.

(** [s.lower()] on the letters A-Z; every other byte is kept. *)
Fixpoint lower (s : string) : string :=
  match s with
  | EmptyString => EmptyString
  | String c r => String (lower_char c) (lower r)
  end.

(** [s.startswith(p)] *)
Fixpoint startswith (s p : string) {struct p} : bool :=
  match p, s with
  | EmptyString, _ => true
  | String _ _, EmptyString => false
  | String a p', String b s' => Ascii.eqb a b && startswith s' p'
  end.

(** Truth value of a string: [not s] holds exactly for the empty one. *)
Definition truthy (s : string) : bool :=
  match s with EmptyString => false | String _ _ => true end.

End Py.

(** colorama's foreground codes (ANSI escape sequences). *)
Module Fore.
Definition RED : string := Py.esc +:+ "[31m".
Definition GREEN : string := Py.esc +:+ "[32m".
Definition YELLOW : string := Py.esc +:+ "[33m".
Definition CYAN : string := Py.esc +:+ "[36m".
Definition WHITE : string := Py.esc +:+ "[37m".
End Fore.

(** ** Exceptions, outcomes and events *)

(** The classes of [Exception] the script can meet: [input] at end of file,
    [float] on a malformed number, and whatever the client library raises
    from a remote call. *)
Inductive exn_class := EOFError | ValueError | RemoteError.

(** [SystemExit] is a [BaseException]: no [except Exception] catches it. *)
Inductive exn :=
| Exc (cls : exn_class) (msg : string)
| SystemExit (code : Z).

Inductive Outcome (A : Type) :=
| Returned (a : A)
| Raised (e : exn).
Arguments Returned {A} a.
Arguments Raised {A} e.

(** Exit status of the process for the outcome of the script. *)
Definition exit_status {A} (o : Outcome A) : Z :=
  match o with
  | Returned _ => 0
  | Raised (SystemExit code) => code
  | Raised (Exc _ _) => 1
  end.

(** What the remote model answers to one call: the text of the response, or
    an exception with its message. *)
Inductive reply :=
| Text (s : string)
| Fails (msg : string).

Record World := { stdin : list string; served : nat }.

(** ** A concrete instance, to run the script

    Temperatures are rationals read from unsigned decimal literals, and the
    model answers every call but the ones listed as failing. *)
Module Demo.

Definition digit (c : ascii) : option N :=
  let n := N_of_ascii c in
  if ((48 <=? n) && (n <=? 57))%N then Some (n - 48)%N else None.

Fixpoint fraction (s : string) (seen : bool) (num : N) (den : positive)
  : option (N * positive) :=
  match s with
  | EmptyString => if seen then Some (num, den) else None
  | String c r =>
      match digit c with
      | Some v => fraction r true (10 * num + v)%N (10 * den)%positive
      | None => None
      end
  end.

Fixpoint decimal (s : string) (seen : bool) (num : N)
  : option (N * positive) :=
  match s with
  | EmptyString => if seen then Some (num, 1%positive) else None
  | String c r =>
      if Ascii.eqb c "." then fraction r seen num 1%positive
      else match digit c with
           | Some v => decimal r true (10 * num + v)%N
           | None => None
           end
  end.

(** A parser for the unsigned decimal literals with at least one digit
    ("0.7", "1.", ".5"); [float] of Python accepts these and more. *)
Definition float_of_string (s : string) : option Q :=
  match decimal s false 0%N with
  | Some (num, den) => Some (Qmake (Z.of_N num) den)
  | None => None
  end.

Definition f0_3 : Q := Qmake 3 10.

Definition remote (failing : list nat) (n : nat) (prompt : string)
    (temperature : option Q) : reply :=
  if existsb (Nat.eqb n) failing
  then Fails "503 Service Unavailable"
  else Text ("Text for: " +:+ prompt).

(** The lines typed by the user in a complete session: the nine answers
    of the collector, the temperature, the body style and the rating. *)
Definition lines : list string :=
  [ "climate policy"; "Argumentative"; "2"; "College professors";
    "carbon tax"; "For"; "IPCC 2023"; "Formal"; "yes"; "0.7"; "Full"; "5" ].

End Demo.

(** ** The script *)

Section Script.

Set Default Proof Using "Type".

(** Python's floating-point numbers, [float(s)] ([None] when it raises
    [ValueError]) and the literal [0.3]. *)
Variable float : Type.
Variable float_of_string : string -> option float.
Variable f0_3 : float.

(** The remote model: the answer to the call number [n] of the run, for a
    prompt and an optional generation temperature. *)
Variable remote : nat -> string -> option float -> reply.

Inductive Event :=
| EvPrint (s : string)
| EvInput (prompt : string) (line : option string)
| EvConfigure (api_key : string)
| EvGenerate (prompt : string) (temperature : option float) (r : reply).

Definition Run (A : Type) : Type := World -> Outcome A * World * list Event.

Definition ret {A} (a : A) : Run A := fun w => (Returned a, w, []).

Definition bind {A B} (c : Run A) (k : A -> Run B) : Run B :=
  fun w =>
    match c w with
    | (Returned a, w1, ev1) =>
        let '(o, w2, ev2) := k a w1 in (o, w2, ev1 ++ ev2)
    | (Raised e, w1, ev1) => (Raised e, w1, ev1)
    end.

Definition raise {A} (e : exn) : Run A := fun w => (Raised e, w, []).

(** [try: body / except Exception as e: handler(str(e))] *)
Definition try_except_Exception {A} (body : Run A) (handler : string -> Run A)
  : Run A :=
  fun w =>
    match body w with
    | (Raised (Exc _ msg), w1, ev1) =>
        let '(o, w2, ev2) := handler msg w1 in (o, w2, ev1 ++ ev2)
    | r => r
    end.

(** [try: body / except ValueError: handler] *)
Definition try_except_ValueError {A} (body : Run A) (handler : Run A)
  : Run A :=
  fun w =>
    match body w with
    | (Raised (Exc ValueError _), w1, ev1) =>
        let '(o, w2, ev2) := handler w1 in (o, w2, ev1 ++ ev2)
    | r => r
    end.

Notation "x <- c ;; k" := (bind c (fun x => k))
  (at level 100, c at next level, right associativity).
Notation "c ;;; k" := (bind c (fun _ => k))
  (at level 100, right associativity).

Definition print (s : string) : Run unit :=
  fun w => (Returned tt, w, [EvPrint s]).

(** [input(prompt)]: the next line of standard input, [EOFError] when
    there is none. *)
Definition input (prompt : string) : Run string :=
  fun w =>
    match stdin w with
    | [] => (Raised (Exc EOFError "EOF when reading a line"), w,
             [EvInput prompt None])
    | l :: rest =>
        (Returned l, {| stdin := rest; served := served w |},
         [EvInput prompt (Some l)])
    end.

Definition sys_exit {A} (code : Z) : Run A := raise (SystemExit code).

(** [float(s)] *)
Definition py_float (s : string) : Run float :=
  match float_of_string s with
  | Some x => ret x
  | None => raise (Exc ValueError ("could not convert string to float: " +:+ s))
  end.

(** [g.configure(api_key=...)] *)
Definition configure (api_key : string) : Run unit :=
  fun w => (Returned tt, w, [EvConfigure api_key]).

(** [g.GenerativeModel("gemini-2.0-flash").generate_content(prompt, ...)]
    followed by reading [.text] of the response. *)
Definition generate_content (prompt : string) (temperature : option float)
  : Run string :=
  fun w =>
    let r := remote (served w) prompt temperature in
    let w' := {| stdin := stdin w; served := S (served w) |} in
    match r with
    | Text s => (Returned s, w', [EvGenerate prompt temperature r])
    | Fails msg => (Raised (Exc RemoteError msg), w',
                    [EvGenerate prompt temperature r])
    end.

Definition gemini_ready_check : Run bool :=
  try_except_Exception
    (text <- generate_content "ping" None ;;
     if Py.truthy (Py.strip text) then
       print (Fore.GREEN +:+ ":white_check_mark: Gemini API key verified successfully." +:+ Py.nl) ;;;
       ret true
     else
       print (Fore.YELLOW +:+ ":warning: Connected, but empty response. Continuing anyway." +:+ Py.nl) ;;;
       ret true)
    (fun e =>
       print (Fore.RED +:+ ":x: Gemini API key verification failed." +:+ Py.nl) ;;;
       print (Fore.YELLOW +:+ "Reason: " +:+ e +:+ Py.nl) ;;;
       print (Fore.CYAN +:+ ":compass: Fix checklist:") ;;;
       print (Fore.WHITE +:+ "- Ensure you copied the full key from Google AI Studio.") ;;;
       print (Fore.WHITE +:+ "- Enable 'Generative Language API' for your project.") ;;;
       print (Fore.WHITE +:+ "- Remove API restrictions while testing." +:+ Py.nl) ;;;
       ret false).

Definition generate_response (prompt : string) (temperature : float)
  : Run string :=
  try_except_Exception
    (generate_content prompt (Some temperature))
    (fun e => ret ("Error: " +:+ e)).

(** The mapping returned by [get_essay_details]: a dictionary with nine
    fixed keys, all read through literal keys. *)
Record details := {
  topic : string;
  essay_type : string;
  length : string;
  target_audience : string;
  specific_points : string;
  stance : string;
  references : string;
  writing_style : string;
  outline_needed : string
}.

(** [{"1": "300", "2": "900", "3": "1200", "4": "2000"}] *)
Definition word_counts : gmap string string :=
  <["1" := "300"]> (<["2" := "900"]> (<["3" := "1200"]> (<["4" := "2000"]> ∅))).

(** [word_counts.get(choice, "300")] *)
Definition length_of_choice (word_count_choice : string) : string :=
  default "300" (word_counts !! word_count_choice).

Definition get_essay_details : Run details :=
  print (Fore.CYAN +:+ Py.nl +:+ "=== AI Writing Assistant ===" +:+ Py.nl) ;;;
  topic <- input (Fore.YELLOW +:+ "What is the topic of your essay? ") ;;
  essay_type <- input (Fore.YELLOW +:+ "Essay type (e.g., Argumentative, Expository, Descriptive, Persuasive): ") ;;
  print (Fore.GREEN +:+ Py.nl +:+ "Select essay word count:") ;;;
  print (Fore.GREEN +:+ "1. 300 words") ;;;
  print (Fore.GREEN +:+ "2. 900 words") ;;;
  print (Fore.GREEN +:+ "3. 1200 words") ;;;
  print (Fore.GREEN +:+ "4. 2000 words") ;;;
  word_count_choice <- input (Fore.YELLOW +:+ "Choice (1-4): ") ;;
  let length := length_of_choice word_count_choice in
  target_audience <- input (Fore.YELLOW +:+ "Target audience (e.g., High school students, College professors): ") ;;
  specific_points <- input (Fore.YELLOW +:+ "Any specific points to include? ") ;;
  stance <- input (Fore.YELLOW +:+ "Your stance (For, Against, Neutral): ") ;;
  references <- input (Fore.YELLOW +:+ "Any quotes or references to include? ") ;;
  writing_style <- input (Fore.YELLOW +:+ "Preferred writing style (Formal, Conversational, Academic, Creative): ") ;;
  answer <- input (Fore.YELLOW +:+ "Would you like the AI to suggest an outline first? (Yes/No): ") ;;
  let outline_needed := Py.lower answer in
  ret {| topic := topic;
         essay_type := essay_type;
         length := length;
         target_audience := target_audience;
         specific_points := specific_points;
         stance := stance;
         references := references;
         writing_style := writing_style;
         outline_needed := outline_needed |}.

(** The five prompt templates of [generate_essay_content]. *)
Definition outline_prompt (d : details) : string :=
  "Create a clear outline for a " +:+ essay_type d +:+ " essay about '"
    +:+ topic d +:+ "', "
    +:+ "written in a " +:+ writing_style d +:+ " tone for "
    +:+ target_audience d +:+ ".".

Definition intro_prompt (d : details) : string :=
  "Write an introduction for a " +:+ essay_type d +:+ " essay on '"
    +:+ topic d +:+ "' "
    +:+ "that supports a " +:+ stance d +:+ " stance. Use a "
    +:+ writing_style d +:+ " tone "
    +:+ "for " +:+ target_audience d +:+ ".".

Definition body_prompt (d : details) : string :=
  "Write the full body (about " +:+ length d +:+ " words) of a "
    +:+ essay_type d +:+ " essay "
    +:+ "on '" +:+ topic d +:+ "', taking a " +:+ stance d +:+ " stance. "
    +:+ "Maintain a " +:+ writing_style d +:+ " tone for "
    +:+ target_audience d +:+ ".".

Definition step_prompt (d : details) : string :=
  "Write the essay body for '" +:+ topic d
    +:+ "' step-by-step, explaining each argument and evidence clearly.".

Definition conclusion_prompt (d : details) : string :=
  "Write a conclusion for a " +:+ essay_type d +:+ " essay on '"
    +:+ topic d +:+ "', "
    +:+ "summarizing the key arguments and reinforcing a " +:+ stance d
    +:+ " stance.".

Definition generate_essay_content (d : details) : Run unit :=
  temperature <-
    try_except_ValueError
      (s <- input (Fore.YELLOW +:+ "Enter temperature (0.2=structured, 0.7=creative): ") ;;
       py_float s)
      (ret f0_3) ;;
  (if String.eqb (outline_needed d) "yes" then
     outline <- generate_response (outline_prompt d) temperature ;;
     print (Fore.CYAN +:+ Py.nl +:+ "=== Generated Outline ===") ;;;
     print (Fore.GREEN +:+ outline)
   else ret tt) ;;;
  introduction <- generate_response (intro_prompt d) temperature ;;
  print (Fore.CYAN +:+ Py.nl +:+ "=== Generated Introduction ===") ;;;
  print (Fore.GREEN +:+ introduction) ;;;
  answer <- input (Fore.YELLOW +:+ "Generate body step-by-step or full draft? (Step/Full): ") ;;
  let body_style := Py.lower answer in
  (if Py.startswith body_style "f" then
     body <- generate_response (body_prompt d) temperature ;;
     print (Fore.CYAN +:+ Py.nl +:+ "=== Generated Full Body ===") ;;;
     print (Fore.GREEN +:+ body)
   else
     step_body <- generate_response (step_prompt d) temperature ;;
     print (Fore.CYAN +:+ Py.nl +:+ "=== Generated Step-by-Step Body ===") ;;;
     print (Fore.GREEN +:+ step_body)) ;;;
  conclusion <- generate_response (conclusion_prompt d) temperature ;;
  print (Fore.CYAN +:+ Py.nl +:+ "=== Generated Conclusion ===") ;;;
  print (Fore.GREEN +:+ conclusion).

Definition feedback_and_refinement : Run unit :=
  satisfaction <- input (Fore.YELLOW +:+ Py.nl +:+ "Rate satisfaction (1â€“5): ") ;;
  if negb (String.eqb (Py.strip satisfaction) "5") then
    feedback <- input (Fore.YELLOW +:+ "What should be improved (tone, clarity, structure)? ") ;;
    print (Fore.CYAN +:+ Py.nl +:+ "Thank you! Feedback noted: " +:+ feedback)
  else
    print (Fore.CYAN +:+ Py.nl +:+ ":tada: Glad you liked it!").

Definition run_activity : Run unit :=
  print (Fore.CYAN +:+ Py.nl +:+ "Welcome to the AI Writing Assistant!" +:+ Py.nl) ;;;
  ready <- gemini_ready_check ;;
  (if negb ready then sys_exit 1 else ret tt) ;;;
  d <- get_essay_details ;;
  generate_essay_content d ;;;
  feedback_and_refinement.

(** The module body, run as a script: [GEMINI_API_KEY] is the attribute of
    [config] ([None] when [config] does not define it).  colorama's
    [init(autoreset=True)] only changes how the console renders the colour
    codes and emits no event. *)
Definition main (GEMINI_API_KEY : option string) : Run unit :=
  let API_KEY := Py.strip (default "" GEMINI_API_KEY) in
  if negb (Py.truthy API_KEY) || negb (Py.startswith API_KEY "AIza") then
    print (Fore.RED +:+ ":x: Error: Please set a valid GEMINI_API_KEY in config.py before running.") ;;;
    sys_exit 1
  else
    configure API_KEY ;;;
    run_activity.

(** ** Reading a run *)

Definition outcome_of {A} (r : Outcome A * World * list Event) : Outcome A :=
  fst (fst r).
Definition world_of {A} (r : Outcome A * World * list Event) : World :=
  snd (fst r).
Definition events_of {A} (r : Outcome A * World * list Event) : list Event :=
  snd r.

(** The prompts of the remote calls of a trace, in order. *)
Fixpoint requested (ev : list Event) : list string :=
  match ev with
  | [] => []
  | EvGenerate p _ _ :: ev' => p :: requested ev'
  | _ :: ev' => requested ev'
  end.

(** The text [generate_response] hands back for a reply of the model. *)
Definition shown (r : reply) : string :=
  match r with
  | Text s => s
  | Fails msg => "Error: " +:+ msg
  end.

(** The events of one generated section: the call number [n], then the
    header and the text on the console. *)
Definition section_events (n : nat) (prompt : string) (T : float)
    (header : string) : list Event :=
  let r := remote n prompt (Some T) in
  [ EvGenerate prompt (Some T) r;
    EvPrint (Fore.CYAN +:+ Py.nl +:+ header);
    EvPrint (Fore.GREEN +:+ shown r) ].

Definition temperature_prompt : string :=
  Fore.YELLOW +:+ "Enter temperature (0.2=structured, 0.7=creative): ".
Definition body_style_prompt : string :=
  Fore.YELLOW +:+ "Generate body step-by-step or full draft? (Step/Full): ".

Definition outline_events (d : details) (T : float) (n : nat) : list Event :=
  if String.eqb (outline_needed d) "yes"
  then section_events n (outline_prompt d) T "=== Generated Outline ==="
  else [].

(** Number of the introduction's call when the run starts at call [n]. *)
Definition intro_call (d : details) (n : nat) : nat :=
  if String.eqb (outline_needed d) "yes" then S n else n.

Definition body_events (d : details) (T : float) (b : string) (n : nat)
  : list Event :=
  if Py.startswith (Py.lower b) "f"
  then section_events n (body_prompt d) T "=== Generated Full Body ==="
  else section_events n (step_prompt d) T "=== Generated Step-by-Step Body ===".

(** The events of the orchestration once the temperature [T] is fixed and
    the body style [b] is the line read after the introduction. *)
Definition sections (d : details) (T : float) (b : string) (n : nat)
  : list Event :=
  outline_events d T n
  ++ section_events (intro_call d n) (intro_prompt d) T
       "=== Generated Introduction ==="
  ++ [EvInput body_style_prompt (Some b)]
  ++ body_events d T b (S (intro_call d n))
  ++ section_events (S (S (intro_call d n))) (conclusion_prompt d) T
       "=== Generated Conclusion ===".

(** The temperature in force after the line [t] was read. *)
Definition effective_temperature (t : string) : float :=
  default f0_3 (float_of_string t).

(** The prompts the orchestration is to send, in order, for the
    dictionary [d] and the body style [b]. *)
Definition planned (d : details) (b : string) : list string :=
  (if String.eqb (outline_needed d) "yes" then [outline_prompt d] else [])
  ++ [ intro_prompt d;
       if Py.startswith (Py.lower b) "f" then body_prompt d else step_prompt d;
       conclusion_prompt d ].

Definition returned {A} (o : Outcome A) : option A :=
  match o with Returned a => Some a | Raised _ => None end.

(** The dictionary built from the nine answers of the user. *)
Definition collected (a_topic a_type choice a_audience a_points a_stance
    a_refs a_style answer : string) : details :=
  {| topic := a_topic;
     essay_type := a_type;
     length := length_of_choice choice;
     target_audience := a_audience;
     specific_points := a_points;
     stance := a_stance;
     references := a_refs;
     writing_style := a_style;
     outline_needed := Py.lower answer |}.



(** The step-by-step prompt as a template over the topic. *)
Definition step_template (a_topic : string) : string :=
  "Write the essay body for '" +:+ a_topic
    +:+ "' step-by-step, explaining each argument and evidence clearly.".

(** The body style starts with the letter f, in either case. *)
Definition starts_with_f (b : string) : Prop :=
  exists r, b = String "f" r \/ b = String "F" r.

Definition full_body_header : string :=
  Fore.CYAN +:+ Py.nl +:+ "=== Generated Full Body ===".
Definition step_body_header : string :=
  Fore.CYAN +:+ Py.nl +:+ "=== Generated Step-by-Step Body ===".

Definition rating_prompt : string :=
  Fore.YELLOW +:+ Py.nl +:+ "Rate satisfaction (1â€“5): ".
Definition comment_prompt : string :=
  Fore.YELLOW +:+ "What should be improved (tone, clarity, structure)? ".
Definition acknowledgment : string :=
  Fore.CYAN +:+ Py.nl +:+ ":tada: Glad you liked it!".
Definition echo (comment : string) : string :=
  Fore.CYAN +:+ Py.nl +:+ "Thank you! Feedback noted: " +:+ comment.

Definition welcome : string :=
  Fore.CYAN +:+ Py.nl +:+ "Welcome to the AI Writing Assistant!" +:+ Py.nl.
Definition collector_banner : string :=
  Fore.CYAN +:+ Py.nl +:+ "=== AI Writing Assistant ===" +:+ Py.nl.
Definition credential_diagnostic : string :=
  Fore.RED +:+ ":x: Error: Please set a valid GEMINI_API_KEY in config.py before running.".

(** What the probe prints when its call raises with the reason [msg]. *)
Definition probe_failure_report (msg : string) : list Event :=
  [ EvPrint (Fore.RED +:+ ":x: Gemini API key verification failed." +:+ Py.nl);
    EvPrint (Fore.YELLOW +:+ "Reason: " +:+ msg +:+ Py.nl);
    EvPrint (Fore.CYAN +:+ ":compass: Fix checklist:");
    EvPrint (Fore.WHITE +:+ "- Ensure you copied the full key from Google AI Studio.");
    EvPrint (Fore.WHITE +:+ "- Enable 'Generative Language API' for your project.");
    EvPrint (Fore.WHITE +:+ "- Remove API restrictions while testing." +:+ Py.nl) ].

(** The exception of [input] at the end of standard input. *)
Definition eof : exn := Exc EOFError "EOF when reading a line".

Definition probe_verified : string :=
  Fore.GREEN +:+ ":white_check_mark: Gemini API key verified successfully." +:+ Py.nl.
Definition probe_warning : string :=
  Fore.YELLOW +:+ ":warning: Connected, but empty response. Continuing anyway." +:+ Py.nl.

(** The dictionary [d] with other values under "specific_points" and
    "references". *)
Definition with_notes (d : details) (points refs : string) : details :=
  {| topic := topic d;
     essay_type := essay_type d;
     length := length d;
     target_audience := target_audience d;
     specific_points := points;
     stance := stance d;
     references := refs;
     writing_style := writing_style d;
     outline_needed := outline_needed d |}.

(** The dictionary [d] with another value under "length". *)
Definition with_length (d : details) (len : string) : details :=
  {| topic := topic d;
     essay_type := essay_type d;
     length := len;
     target_audience := target_audience d;
     specific_points := specific_points d;
     stance := stance d;
     references := references d;
     writing_style := writing_style d;
     outline_needed := outline_needed d |}.

(** A computation that leaves through [sys.exit] only with the code 1. *)
Definition exits_with_one {A} (c : Run A) : Prop :=
  forall w code, outcome_of (c w) = Raised (SystemExit code) -> code = 1%Z.

(** A computation that makes at most [k] remote calls. *)
Definition calls_at_most {A} (k : nat) (c : Run A) : Prop :=
  forall w, (List.length (requested (events_of (c w))) <= k)%nat.

(** ** Symbolic execution of the functions *)

Lemma bind_assoc {A B C} (c : Run A) (k1 : A -> Run B) (k2 : B -> Run C)
    (w : World) :
  bind (bind c k1) k2 w = bind c (fun x => bind (k1 x) k2) w.
Proof.
  unfold bind.
  destruct (c w) as [[[a|e] w1] ev1]; [|reflexivity].
  destruct (k1 a w1) as [[[b|e] w2] ev2]; [|reflexivity].
  destruct (k2 b w2) as [[o w3] ev3].
  now rewrite app_assoc.
Qed.

Lemma bind_ret {A B} (a : A) (k : A -> Run B) (w : World) :
  bind (ret a) k w = k a w.
Proof. unfold bind, ret. now destruct (k a w) as [[o w'] ev]. Qed.

Lemma bind_print {B} (s : string) (k : unit -> Run B) (w : World) :
  bind (print s) k w
  = (let '(o, w', ev) := k tt w in (o, w', EvPrint s :: ev)).
Proof. reflexivity. Qed.

Lemma bind_input {B} (p l : string) (k : string -> Run B)
    (rest : list string) (n : nat) :
  bind (input p) k {| stdin := l :: rest; served := n |}
  = (let '(o, w', ev) := k l {| stdin := rest; served := n |} in
     (o, w', EvInput p (Some l) :: ev)).
Proof. reflexivity. Qed.

Lemma generate_response_run (p : string) (T : float) (w : World) :
  generate_response p T w
  = (Returned (shown (remote (served w) p (Some T))),
     {| stdin := stdin w; served := S (served w) |},
     [EvGenerate p (Some T) (remote (served w) p (Some T))]).
Proof.
  unfold generate_response, try_except_Exception, generate_content, shown.
  destruct (remote (served w) p (Some T)); reflexivity.
Qed.

Lemma bind_generate_response {B} (p : string) (T : float)
    (k : string -> Run B) (w : World) :
  bind (generate_response p T) k w
  = (let '(o, w', ev) :=
       k (shown (remote (served w) p (Some T)))
         {| stdin := stdin w; served := S (served w) |} in
     (o, w', EvGenerate p (Some T) (remote (served w) p (Some T)) :: ev)).
Proof. unfold bind. now rewrite generate_response_run. Qed.

Ltac run_step :=
  first [ rewrite bind_assoc
        | rewrite bind_ret
        | rewrite bind_print
        | rewrite bind_input
        | rewrite bind_generate_response ];
  cbn [stdin served].

Lemma generate_essay_content_run (d : details) (t b : string)
    (rest : list string) (n : nat) :
  generate_essay_content d {| stdin := t :: b :: rest; served := n |}
  = (Returned tt,
     {| stdin := rest; served := S (S (S (intro_call d n))) |},
     EvInput temperature_prompt (Some t)
       :: sections d (effective_temperature t) b n).
Proof.
  unfold generate_essay_content, sections, effective_temperature,
    outline_events, body_events, intro_call, section_events.
  unfold bind at 1.
  unfold try_except_ValueError, bind at 1, input at 1, py_float.
  cbn [stdin served].
  destruct (float_of_string t) as [T|]; cbn [ret raise]; cbv [default id];
    destruct (String.eqb (outline_needed d) "yes");
    repeat run_step; cbv zeta;
    destruct (Py.startswith (Py.lower b) "f");
    repeat run_step; reflexivity.
Qed.

Lemma get_essay_details_run (a1 a2 a3 a4 a5 a6 a7 a8 a9 : string)
    (rest : list string) (n : nat) :
  exists ev,
    get_essay_details
      {| stdin := a1 :: a2 :: a3 :: a4 :: a5 :: a6 :: a7 :: a8 :: a9 :: rest;
         served := n |}
    = (Returned (collected a1 a2 a3 a4 a5 a6 a7 a8 a9),
       {| stdin := rest; served := n |}, ev)
    /\ requested ev = [].
Proof. eexists. split; reflexivity. Qed.

Lemma bind_get_essay_details {B} (a1 a2 a3 a4 a5 a6 a7 a8 a9 : string)
    (rest : list string) (n : nat) (k : details -> Run B) :
  let w := {| stdin := a1 :: a2 :: a3 :: a4 :: a5 :: a6 :: a7 :: a8 :: a9 :: rest;
              served := n |} in
  bind get_essay_details k w
  = (let '(o, w', ev) :=
       k (collected a1 a2 a3 a4 a5 a6 a7 a8 a9)
         {| stdin := rest; served := n |} in
     (o, w', events_of (get_essay_details w) ++ ev)).
Proof. reflexivity. Qed.

Lemma requested_app (ev1 ev2 : list Event) :
  requested (ev1 ++ ev2) = requested ev1 ++ requested ev2.
Proof.
  induction ev1 as [|e ev1 IH]; [reflexivity|].
  destruct e; simpl; now rewrite IH.
Qed.

Lemma length_of_choice_default (choice : string) :
  choice ∉ ["1"; "2"; "3"; "4"] -> length_of_choice choice = "300".
Proof.
  intros H. unfold length_of_choice, word_counts.
  rewrite !lookup_insert_ne, lookup_empty; [reflexivity|..];
    intros <-; apply H; set_solver.
Qed.

Lemma requested_sections (d : details) (T : float) (b : string) (n : nat) :
  requested (sections d T b n) = planned d b.
Proof.
  unfold sections, planned, outline_events, body_events.
  destruct (String.eqb (outline_needed d) "yes");
    destruct (Py.startswith (Py.lower b) "f"); reflexivity.
Qed.

Lemma sections_temperature (d : details) (T : float) (b : string) (n : nat)
    (p : string) (T' : option float) (r : reply) :
  In (EvGenerate p T' r) (sections d T b n) -> T' = Some T.
Proof.
  clear float_of_string.
  unfold sections, outline_events, body_events, section_events.
  destruct (String.eqb (outline_needed d) "yes");
    destruct (Py.startswith (Py.lower b) "f");
    cbn [In app]; intuition congruence.
Qed.

Lemma sections_show_failure (d : details) (T : float) (b : string)
    (n k : nat) (p msg : string) :
  planned d b !! k = Some p ->
  remote (k + n) p (Some T) = Fails msg ->
  In (EvPrint (Fore.GREEN +:+ "Error: " +:+ msg)) (sections d T b n).
Proof.
  clear float_of_string.
  unfold sections, planned, outline_events, body_events, intro_call,
    section_events.
  destruct (String.eqb (outline_needed d) "yes");
    destruct (Py.startswith (Py.lower b) "f");
    intros Hk Hr;
    destruct k as [|[|[|[|k]]]]; cbn in Hk; try discriminate;
    injection Hk as <-; cbn [Nat.add] in Hr; rewrite Hr;
    cbn [In app shown]; tauto.
Qed.

Lemma feedback_makes_no_call (w : World) (p : string) (T : option float)
    (r : reply) :
  ~ In (EvGenerate p T r) (events_of (feedback_and_refinement w)).
Proof.
  clear float_of_string remote.
  destruct w as [[|l1 [|l2 ins]] m];
    unfold feedback_and_refinement, bind, input; cbn -[String.append];
    try destruct (negb (String.eqb (Py.strip l1) "5"));
    cbn -[String.append]; intuition congruence.
Qed.

Ltac lower_char_cases c :=
  destruct c as [[] [] [] [] [] [] [] []]; vm_compute;
  (split; [ intros H; first [discriminate H | auto]
          | intros [H|H]; first [discriminate H | reflexivity] ]).

Lemma lower_char_f (c : ascii) :
  Py.lower_char c = "f"%char <-> c = "f"%char \/ c = "F"%char.
Proof. lower_char_cases c. Qed.




Lemma startswith_lower_f (b : string) :
  Py.startswith (Py.lower b) "f" = true <-> starts_with_f b.
Proof.
  unfold starts_with_f. destruct b as [|c r]; cbn [Py.lower Py.startswith].
  - split; [discriminate | intros [r [H|H]]; discriminate H].
  - rewrite andb_true_r, Ascii.eqb_eq. split.
    + intros H. symmetry in H. apply lower_char_f in H as [->| ->]; eauto.
    + intros [r' [H|H]]; injection H as -> _; reflexivity.
Qed.



Lemma header_in_sections (d : details) (T : float) (b : string) (n : nat) :
  (In (EvPrint full_body_header) (sections d T b n)
     <-> Py.startswith (Py.lower b) "f" = true)
  /\ (In (EvPrint step_body_header) (sections d T b n)
     <-> Py.startswith (Py.lower b) "f" = false).
Proof.
  clear float_of_string.
  unfold sections, outline_events, body_events, section_events,
    full_body_header, step_body_header.
  destruct (String.eqb (outline_needed d) "yes");
    destruct (Py.startswith (Py.lower b) "f");
    cbn [In app]; (split; split; try tauto; try discriminate);
    intros H; exfalso;
    repeat (destruct H as [H|H]; [vm_compute in H; congruence|]);
    exact H.
Qed.

Lemma gemini_ready_check_fails (w : World) (msg : string) :
  remote (served w) "ping" None = Fails msg ->
  gemini_ready_check w
  = (Returned false, {| stdin := stdin w; served := S (served w) |},
     EvGenerate "ping" None (Fails msg) :: probe_failure_report msg).
Proof.
  intros H.
  unfold gemini_ready_check, try_except_Exception, bind at 1, generate_content.
  rewrite H. reflexivity.
Qed.

Lemma run_activity_probe_fails (w : World) (msg : string) :
  remote (served w) "ping" None = Fails msg ->
  run_activity w
  = (Raised (SystemExit 1), {| stdin := stdin w; served := S (served w) |},
     EvPrint welcome :: EvGenerate "ping" None (Fails msg)
       :: probe_failure_report msg).
Proof.
  intros H. unfold run_activity. rewrite bind_print. unfold bind at 1.
  rewrite (gemini_ready_check_fails w msg H). reflexivity.
Qed.

Lemma string_length_ind (P : string -> Prop) :
  (forall s, (forall r, (String.length r < String.length s)%nat -> P r) -> P s) ->
  forall s, P s.
Proof.
  clear float float_of_string f0_3 remote.
  intros H s. remember (String.length s) as n eqn:E. revert s E.
  induction n as [n IH] using lt_wf_ind. intros s ->.
  apply H. intros r Hr. now apply (IH (String.length r)).
Qed.

Lemma after_blank_shorter (s r : string) :
  Py.after_blank s = Some r -> (String.length r < String.length s)%nat.
Proof.
  clear float float_of_string f0_3 remote.
  destruct s as [|c1 [|c2 [|c3 r3]]]; cbn [Py.after_blank];
    repeat match goal with
           | |- context [if ?b then _ else _] => destruct b
           end;
    intros H; try discriminate H; injection H as <-;
    cbn [String.length]; lia.
Qed.

Lemma lstrip_unfold (s : string) :
  Py.lstrip s
  = match Py.after_blank s with Some r => Py.lstrip r | None => s end.
Proof.
  clear float float_of_string f0_3 remote.
  destruct s as [|c1 r1]; [reflexivity|].
  cbn [Py.lstrip Py.after_blank].
  destruct (Py.blank1 c1); [reflexivity|].
  destruct r1 as [|c2 r2]; [reflexivity|].
  destruct (Py.blank2 c1 c2); [reflexivity|].
  destruct r2 as [|c3 r3]; [reflexivity|].
  destruct (Py.blank3 c1 c2 c3); reflexivity.
Qed.

Lemma whitespace_only_unfold (s : string) :
  Py.whitespace_only s
  = match s with
    | EmptyString => true
    | String _ _ =>
        match Py.after_blank s with
        | Some r => Py.whitespace_only r
        | None => false
        end
    end.
Proof.
  clear float float_of_string f0_3 remote.
  destruct s as [|c1 r1]; [reflexivity|].
  cbn [Py.whitespace_only Py.after_blank].
  destruct (Py.blank1 c1); [reflexivity|].
  destruct r1 as [|c2 r2]; [reflexivity|].
  destruct (Py.blank2 c1 c2); [reflexivity|].
  destruct r2 as [|c3 r3]; [reflexivity|].
  destruct (Py.blank3 c1 c2 c3); reflexivity.
Qed.

Lemma whitespace_only_lstrip (s : string) :
  Py.whitespace_only (Py.lstrip s) = Py.whitespace_only s.
Proof.
  clear float float_of_string f0_3 remote.
  induction s as [s IH] using string_length_ind.
  rewrite lstrip_unfold, (whitespace_only_unfold s).
  destruct s as [|c r]; [reflexivity|].
  destruct (Py.after_blank (String c r)) as [r'|] eqn:E.
  - apply IH. now apply after_blank_shorter.
  - rewrite whitespace_only_unfold, E. reflexivity.
Qed.

Lemma lstrip_whitespace_only (s : string) :
  Py.whitespace_only s = true -> Py.lstrip s = "".
Proof.
  clear float float_of_string f0_3 remote.
  induction s as [s IH] using string_length_ind.
  rewrite lstrip_unfold, (whitespace_only_unfold s).
  destruct s as [|c r]; [reflexivity|].
  destruct (Py.after_blank (String c r)) as [r'|] eqn:E; [|discriminate].
  apply IH. now apply after_blank_shorter.
Qed.

Lemma rstrip_empty_iff (s : string) :
  Py.rstrip s = "" <-> Py.whitespace_only s = true.
Proof.
  clear float float_of_string f0_3 remote.
  destruct s as [|c r]; [split; reflexivity|].
  cbn [Py.rstrip].
  destruct (Py.whitespace_only (String c r)); split;
    intros H; first [reflexivity | discriminate H].
Qed.

Lemma strip_empty_iff (s : string) :
  Py.strip s = "" <-> Py.whitespace_only s = true.
Proof.
  clear float float_of_string f0_3 remote.
  unfold Py.strip. now rewrite rstrip_empty_iff, whitespace_only_lstrip.
Qed.

Lemma main_rejects (cred : option string) (w : World) :
  Py.startswith (Py.strip (default "" cred)) "AIza" = false ->
  main cred w = (Raised (SystemExit 1), w, [EvPrint credential_diagnostic]).
Proof.
  intros H. unfold main. rewrite H, orb_true_r. reflexivity.
Qed.

Lemma main_accepts (cred : option string) (w : World) :
  Py.startswith (Py.strip (default "" cred)) "AIza" = true ->
  main cred w
  = (let '(o, w', ev) := run_activity w in
     (o, w', EvConfigure (Py.strip (default "" cred)) :: ev)).
Proof.
  intros H. unfold main. rewrite H.
  destruct (Py.strip (default "" cred)); [discriminate H|].
  reflexivity.
Qed.

(** ** Properties *)

(** C1. Whichever orchestration step (outline, introduction, body or
    conclusion: the step number [k] of the plan) meets a remote call that
    raises with the reason [msg], the Generation Client returns the text
    ["Error: " + msg]; the run of the Orchestrator still returns normally,
    all the planned calls are issued in their order, and the error text is
    what is displayed for the step. *)
Theorem generation_failure_is_fail_soft (d : details) (t b : string)
    (rest : list string) (n k : nat) (p msg : string) :
  let T := effective_temperature t in
  let run := generate_essay_content d {| stdin := t :: b :: rest; served := n |} in
  planned d b !! k = Some p ->
  remote (k + n) p (Some T) = Fails msg ->
  outcome_of (generate_response p T {| stdin := rest; served := k + n |})
    = Returned ("Error: " +:+ msg)
  /\ outcome_of run = Returned tt
  /\ requested (events_of run) = planned d b
  /\ In (EvPrint (Fore.GREEN +:+ "Error: " +:+ msg)) (events_of run).
Proof.
  intros T run Hk Hr. subst run.
  rewrite generate_response_run, generate_essay_content_run.
  cbn [outcome_of events_of fst snd served requested].
  rewrite Hr, requested_sections.
  repeat split.
  right. now apply sections_show_failure with (k := k) (p := p).
Qed.

(** C4. The length stored by the Parameter Collector is "300", "900",
    "1200" and "2000" for the selectors "1", "2", "3" and "4", and the
    default "300" for every other selector, the empty string included. *)
Theorem word_count_selector (a1 a2 choice a4 a5 a6 a7 a8 a9 : string)
    (rest : list string) (n : nat) :
  let length_for c :=
    length <$> returned (outcome_of (get_essay_details
      {| stdin := a1 :: a2 :: c :: a4 :: a5 :: a6 :: a7 :: a8 :: a9 :: rest;
         served := n |})) in
  choice ∉ ["1"; "2"; "3"; "4"] ->
  length_for choice = Some "300"
  /\ length_for "" = Some "300"
  /\ length_for "1" = Some "300"
  /\ length_for "2" = Some "900"
  /\ length_for "3" = Some "1200"
  /\ length_for "4" = Some "2000".
Proof.
  intros length_for H. subst length_for. cbn beta.
  repeat split; try reflexivity.
  cbn. f_equal. now apply length_of_choice_default.
Qed.

(** C5. When the temperature line fails to parse as a number, the
    Orchestrator returns normally, every generation call of the run
    carries the temperature 0.3, and the console shows nothing but the
    sections of a run at 0.3: no error is reported.  The Feedback Step
    that ends the run makes no generation call. *)
Theorem unparsable_temperature_defaults (d : details) (t b : string)
    (rest : list string) (n : nat) :
  let run := generate_essay_content d {| stdin := t :: b :: rest; served := n |} in
  float_of_string t = None ->
  outcome_of run = Returned tt
  /\ events_of run = EvInput temperature_prompt (Some t) :: sections d f0_3 b n
  /\ (forall p T r, In (EvGenerate p T r) (events_of run) -> T = Some f0_3)
  /\ (forall w p T r,
        ~ In (EvGenerate p T r) (events_of (feedback_and_refinement w))).
Proof.
  intros run H. subst run. rewrite generate_essay_content_run.
  unfold effective_temperature. rewrite H. cbn [default outcome_of events_of fst snd].
  repeat split.
  - intros p T r [E|HIn]; [discriminate|].
    now apply sections_temperature in HIn.
  - apply feedback_makes_no_call.
Qed.

(** C9. Scenario: topic "climate policy", type "Argumentative", word-count
    choice "2", outline "yes", body choice "Full".  The length is "900" and
    the run makes exactly four generation calls (outline, introduction,
    full body, conclusion) in that order; each call comes after the header
    and the text of the previous section were printed. *)
Theorem scenario_climate_policy (a4 a5 a6 a7 a8 t : string)
    (rest : list string) (n : nat) :
  let w := {| stdin := "climate policy" :: "Argumentative" :: "2" :: a4 :: a5
                        :: a6 :: a7 :: a8 :: "yes" :: t :: "Full" :: rest;
              served := n |} in
  let d := {| topic := "climate policy"; essay_type := "Argumentative";
              length := "900"; target_audience := a4; specific_points := a5;
              stance := a6; references := a7; writing_style := a8;
              outline_needed := "yes" |} in
  let T := effective_temperature t in
  let run := bind get_essay_details generate_essay_content w in
  outcome_of (get_essay_details w) = Returned d
  /\ outcome_of run = Returned tt
  /\ requested (events_of run)
     = [outline_prompt d; intro_prompt d; body_prompt d; conclusion_prompt d]
  /\ events_of run
     = events_of (get_essay_details w)
       ++ [EvInput temperature_prompt (Some t)]
       ++ section_events n (outline_prompt d) T "=== Generated Outline ==="
       ++ section_events (S n) (intro_prompt d) T "=== Generated Introduction ==="
       ++ [EvInput body_style_prompt (Some "Full")]
       ++ section_events (S (S n)) (body_prompt d) T "=== Generated Full Body ==="
       ++ section_events (S (S (S n))) (conclusion_prompt d) T
            "=== Generated Conclusion ===".
Proof.
  intros w d T run. subst run w.
  rewrite bind_get_essay_details. cbv zeta.
  change (collected "climate policy" "Argumentative" "2" a4 a5 a6 a7 a8 "yes")
    with d.
  rewrite generate_essay_content_run.
  cbn [outcome_of events_of fst snd].
  rewrite requested_app.
  destruct (get_essay_details_run "climate policy" "Argumentative" "2"
              a4 a5 a6 a7 a8 "yes" (t :: "Full" :: rest) n) as (ev & -> & Hreq).
  cbn [outcome_of events_of snd fst]. rewrite Hreq.
  cbn [app requested]. rewrite requested_sections.
  repeat split.
Qed.

(** C2. When the probe's call raises, [gemini_ready_check] returns false
    and the program exits with status 1: the Parameter Collector is not
    entered (its banner is not printed, no line is read), whatever the
    credential. *)
Theorem probe_failure_exits (cred : option string) (w : World) (msg : string) :
  remote (served w) "ping" None = Fails msg ->
  outcome_of (gemini_ready_check w) = Returned false
  /\ run_activity w
     = (Raised (SystemExit 1), {| stdin := stdin w; served := S (served w) |},
        EvPrint welcome :: EvGenerate "ping" None (Fails msg)
          :: probe_failure_report msg)
  /\ exit_status (outcome_of (run_activity w)) = 1%Z
  /\ exit_status (outcome_of (main cred w)) = 1%Z
  /\ stdin (world_of (main cred w)) = stdin w
  /\ ~ In (EvPrint collector_banner) (events_of (main cred w))
  /\ (forall p l, ~ In (EvInput p l) (events_of (main cred w))).
Proof.
  intros H.
  rewrite (gemini_ready_check_fails w msg H).
  rewrite (run_activity_probe_fails w msg H).
  split; [reflexivity|]. split; [reflexivity|]. split; [reflexivity|].
  destruct (Py.startswith (Py.strip (default "" cred)) "AIza") eqn:E.
  - rewrite (main_accepts cred w E), (run_activity_probe_fails w msg H).
    cbn [outcome_of world_of events_of fst snd stdin exit_status].
    repeat split.
    + unfold probe_failure_report. cbn [In].
      intros HIn.
      repeat (destruct HIn as [HIn|HIn]; [vm_compute in HIn; congruence|]).
      exact HIn.
    + unfold probe_failure_report. cbn [In]. intuition congruence.
  - rewrite (main_rejects cred w E).
    cbn [outcome_of world_of events_of fst snd stdin exit_status In].
    repeat split.
    + intros [HIn|[]]. vm_compute in HIn. congruence.
    + intuition congruence.
Qed.

(** C3 (amended). When the credential is absent, or when its value with
    the surrounding white space removed does not start with "AIza" (as
    "sk-invalid"), the program prints the diagnostic and exits with status
    1; nothing else happens: no remote call, no line read. *)
Theorem invalid_credential_exits (cred : option string) (w : World) :
  cred = None
  \/ (exists s, cred = Some s /\ Py.startswith (Py.strip s) "AIza" = false) ->
  main cred w = (Raised (SystemExit 1), w, [EvPrint credential_diagnostic])
  /\ exit_status (outcome_of (main cred w)) = 1%Z
  /\ main (Some "sk-invalid") w
     = (Raised (SystemExit 1), w, [EvPrint credential_diagnostic]).
Proof.
  intros H.
  assert (E : Py.startswith (Py.strip (default "" cred)) "AIza" = false).
  { destruct H as [->|(s & -> & H)]; [reflexivity | exact H]. }
  rewrite (main_rejects cred w E). repeat split.
Qed.

(** C6. The Orchestrator takes the full-draft branch exactly when the
    body-style line starts with "f" or "F", and the step-by-step branch
    for every other line, the empty one included; the prompt of the
    step-by-step branch is built from the topic alone. *)
Theorem body_mode_branch (d : details) (t b : string) (rest : list string)
    (n : nat) :
  let run := generate_essay_content d {| stdin := t :: b :: rest; served := n |} in
  let before :=
    (if String.eqb (outline_needed d) "yes" then [outline_prompt d] else [])
    ++ [intro_prompt d] in
  (In (EvPrint full_body_header) (events_of run) <-> starts_with_f b)
  /\ (In (EvPrint step_body_header) (events_of run) <-> ~ starts_with_f b)
  /\ (starts_with_f b ->
      requested (events_of run)
      = before ++ [body_prompt d; conclusion_prompt d])
  /\ (~ starts_with_f b ->
      requested (events_of run)
      = before ++ [step_template (topic d); conclusion_prompt d])
  /\ ~ starts_with_f "".
Proof.
  intros run before. subst run before.
  rewrite generate_essay_content_run. cbn [events_of snd requested].
  rewrite requested_sections.
  destruct (header_in_sections d (effective_temperature t) b n) as [Hf Hs].
  pose proof (startswith_lower_f b) as Hb.
  assert (Hnb : Py.startswith (Py.lower b) "f" = false <-> ~ starts_with_f b).
  { rewrite <- Hb. destruct (Py.startswith (Py.lower b) "f"); intuition congruence. }
  repeat split.
  - intros [E|HIn]; [discriminate E|]. apply Hb, Hf, HIn.
  - intros Hfb. right. apply Hf, Hb, Hfb.
  - intros [E|HIn]; [discriminate E|]. apply Hnb, Hs, HIn.
  - intros Hfb. right. apply Hs, Hnb, Hfb.
  - intros Hfb%Hb. unfold planned. rewrite Hfb.
    destruct (String.eqb (outline_needed d) "yes"); reflexivity.
  - intros Hfb%Hnb. unfold planned. rewrite Hfb.
    destruct (String.eqb (outline_needed d) "yes"); reflexivity.
  - intros [r [H|H]]; discriminate H.
Qed.

(** C7 (amended). The Feedback Step prints the fixed acknowledgment exactly
    when the rating line, with the surrounding white space removed, is
    "5", and then reads nothing more; for every other rating it reads one
    comment line and echoes it. *)
Theorem feedback_on_rating (rating comment : string) (rest : list string)
    (n : nat) :
  let run := feedback_and_refinement
               {| stdin := rating :: comment :: rest; served := n |} in
  (Py.strip rating = "5" ->
     run = (Returned tt, {| stdin := comment :: rest; served := n |},
            [EvInput rating_prompt (Some rating); EvPrint acknowledgment]))
  /\ (Py.strip rating <> "5" ->
     run = (Returned tt, {| stdin := rest; served := n |},
            [EvInput rating_prompt (Some rating);
             EvInput comment_prompt (Some comment);
             EvPrint (echo comment)]))
  /\ (In (EvPrint acknowledgment) (events_of run) <-> Py.strip rating = "5").
Proof.
  clear float_of_string remote.
  intros run. subst run.
  unfold feedback_and_refinement. rewrite bind_input.
  destruct (String.eqb_spec (Py.strip rating) "5") as [E|E]; cbn [negb].
  - repeat split; try reflexivity; try tauto.
    intros _. right. left. reflexivity.
  - rewrite bind_input.
    repeat split; try reflexivity; try tauto.
    cbn [print events_of snd In].
    intros [H|[H|[H|[]]]]; discriminate H.
Qed.


(** C10. The credential is validated after its surrounding white space is
    removed: two values that differ by surrounding white space only are
    treated alike, a value of white space only is treated as an absent one
    (diagnostic, exit status 1), and a credential handed to the client
    configuration is the stripped value, which is not empty and starts
    with "AIza". *)
Theorem credential_is_stripped (s s1 s2 : string) (cred : option string)
    (k : string) (w : World) :
  Py.whitespace_only s = true ->
  Py.strip s1 = Py.strip s2 ->
  hd_error (events_of (main cred w)) = Some (EvConfigure k) ->
  main (Some s1) w = main (Some s2) w
  /\ main (Some s) w = main None w
  /\ main (Some s) w
     = (Raised (SystemExit 1), w, [EvPrint credential_diagnostic])
  /\ exit_status (outcome_of (main (Some s) w)) = 1%Z
  /\ k = Py.strip (default "" cred)
  /\ k <> ""
  /\ Py.startswith k "AIza" = true.
Proof.
  intros Hs H12 Hk.
  assert (Es : Py.strip s = "").
  { now apply strip_empty_iff. }
  split. { unfold main. change (default "" (Some s1)) with s1.
           change (default "" (Some s2)) with s2. now rewrite H12. }
  assert (Em : main (Some s) w
               = (Raised (SystemExit 1), w, [EvPrint credential_diagnostic])).
  { apply main_rejects. change (default "" (Some s)) with s. now rewrite Es. }
  split. { rewrite Em. symmetry. now apply main_rejects. }
  split; [exact Em|]. split; [now rewrite Em|].
  destruct (Py.startswith (Py.strip (default "" cred)) "AIza") eqn:E.
  - rewrite (main_accepts cred w E) in Hk.
    destruct (run_activity w) as [[o w'] ev].
    cbn in Hk. injection Hk as <-.
    repeat split; [|exact E].
    intros E0. rewrite E0 in E. discriminate E.
  - rewrite (main_rejects cred w E) in Hk. discriminate Hk.
Qed.

(** ** Further properties of the functions *)

Lemma bind_returned {A B} (c : Run A) (k : A -> Run B) (w w1 : World) (a : A)
    (ev1 : list Event) :
  c w = (Returned a, w1, ev1) ->
  bind c k w = (let '(o, w2, ev2) := k a w1 in (o, w2, ev1 ++ ev2)).
Proof. intros H. unfold bind. now rewrite H. Qed.

Lemma gemini_ready_check_answers (w : World) (s : string) :
  remote (served w) "ping" None = Text s ->
  gemini_ready_check w
  = (Returned true, {| stdin := stdin w; served := S (served w) |},
     [ EvGenerate "ping" None (Text s);
       EvPrint (if Py.whitespace_only s then probe_warning else probe_verified) ]).
Proof.
  intros H.
  unfold gemini_ready_check, try_except_Exception, bind at 1, generate_content.
  rewrite H. cbv iota beta.
  destruct (Py.whitespace_only s) eqn:Hs.
  - apply strip_empty_iff in Hs. rewrite Hs. reflexivity.
  - destruct (Py.strip s) eqn:E; [|reflexivity].
    apply strip_empty_iff in E. congruence.
Qed.

(** X1. The probe returns true whenever its call does not raise: it prints
    the confirmation when the reply has some text and the warning when the
    reply is empty or made of white space only.  It returns false exactly
    when the call raises, and never raises itself. *)
Theorem probe_passes_on_any_reply (w : World) (s : string) :
  remote (served w) "ping" None = Text s ->
  gemini_ready_check w
  = (Returned true, {| stdin := stdin w; served := S (served w) |},
     [ EvGenerate "ping" None (Text s);
       EvPrint (if Py.whitespace_only s then probe_warning else probe_verified) ])
  /\ (forall w',
        outcome_of (gemini_ready_check w')
        = Returned (match remote (served w') "ping" None with
                    | Text _ => true
                    | Fails _ => false
                    end)).
Proof.
  intros H. split; [now apply gemini_ready_check_answers|].
  intros w'. destruct (remote (served w') "ping" None) as [s'|msg] eqn:E.
  - now rewrite (gemini_ready_check_answers w' s' E).
  - now rewrite (gemini_ready_check_fails w' msg E).
Qed.

(** X2. With fewer than nine lines on standard input the Parameter Collector
    raises [EOFError] after reading all of them: no dictionary is returned
    and no remote call is made. *)
Theorem collector_needs_nine_lines (lines : list string) (n : nat) :
  let run := get_essay_details {| stdin := lines; served := n |} in
  (List.length lines < 9)%nat ->
  outcome_of run = Raised eof
  /\ world_of run = {| stdin := []; served := n |}
  /\ requested (events_of run) = [].
Proof.
  clear float_of_string f0_3 remote.
  intros run H. subst run.
  destruct lines as [|a1 [|a2 [|a3 [|a4 [|a5 [|a6 [|a7 [|a8 [|a9 rest]]]]]]]]];
    cbn [List.length] in H; try lia; repeat split.
Qed.

(** X3. The fall-back to 0.3 covers [ValueError] only.  At the end of
    input the Orchestrator raises [EOFError] at the temperature question
    before any remote call; with the temperature line alone it still
    generates the outline (if asked for) and the introduction, and raises at
    the body-style question. *)
Theorem orchestrator_at_end_of_input (d : details) (t : string) (n : nat) :
  generate_essay_content d {| stdin := []; served := n |}
  = (Raised eof, {| stdin := []; served := n |},
     [EvInput temperature_prompt None])
  /\ generate_essay_content d {| stdin := [t]; served := n |}
     = (Raised eof, {| stdin := []; served := S (intro_call d n) |},
        EvInput temperature_prompt (Some t)
          :: outline_events d (effective_temperature t) n
          ++ section_events (intro_call d n) (intro_prompt d)
               (effective_temperature t) "=== Generated Introduction ==="
          ++ [EvInput body_style_prompt None]).
Proof.
  split; [reflexivity|].
  unfold generate_essay_content, effective_temperature, outline_events,
    intro_call, section_events.
  unfold bind at 1.
  unfold try_except_ValueError, bind at 1, input at 1, py_float.
  cbn [stdin served].
  destruct (float_of_string t) as [T|]; cbn [ret raise]; cbv [default id];
    destruct (String.eqb (outline_needed d) "yes");
    repeat run_step; reflexivity.
Qed.

(** X4. When the temperature line parses, the value read is the one every
    generation call of the run carries. *)
Theorem parsed_temperature_is_used (d : details) (t b : string)
    (rest : list string) (n : nat) (T : float) :
  let run := generate_essay_content d {| stdin := t :: b :: rest; served := n |} in
  float_of_string t = Some T ->
  events_of run = EvInput temperature_prompt (Some t) :: sections d T b n
  /\ (forall p T' r, In (EvGenerate p T' r) (events_of run) -> T' = Some T).
Proof.
  intros run H. subst run. rewrite generate_essay_content_run.
  unfold effective_temperature. rewrite H. cbn [default events_of snd].
  split; [reflexivity|].
  intros p T' r [E|HIn]; [discriminate|].
  now apply sections_temperature in HIn.
Qed.

(** X5. The answers stored under "specific_points" and "references" play no
    part in the orchestration: whatever they are, the run is the same. *)
Theorem notes_are_not_used (d : details) (points refs : string) (w : World) :
  generate_essay_content (with_notes d points refs) w
  = generate_essay_content d w.
Proof. destruct d. reflexivity. Qed.

(** X6. The length matters to the full draft only: when the body style does
    not start with f or F, the run is the same for every length. *)
Theorem length_matters_to_full_draft_only (d : details) (len t b : string)
    (rest : list string) (n : nat) :
  ~ starts_with_f b ->
  generate_essay_content (with_length d len)
    {| stdin := t :: b :: rest; served := n |}
  = generate_essay_content d {| stdin := t :: b :: rest; served := n |}.
Proof.
  intros H.
  assert (E : Py.startswith (Py.lower b) "f" = false).
  { destruct (Py.startswith (Py.lower b) "f") eqn:E; [|reflexivity].
    now apply startswith_lower_f in E. }
  rewrite !generate_essay_content_run.
  unfold sections, body_events. rewrite E.
  destruct d. reflexivity.
Qed.



Lemma sections_show_text (d : details) (T : float) (b : string)
    (n k : nat) (p s : string) :
  planned d b !! k = Some p ->
  remote (k + n) p (Some T) = Text s ->
  In (EvPrint (Fore.GREEN +:+ s)) (sections d T b n).
Proof.
  clear float_of_string f0_3.
  unfold sections, planned, outline_events, body_events, intro_call,
    section_events.
  destruct (String.eqb (outline_needed d) "yes");
    destruct (Py.startswith (Py.lower b) "f");
    intros Hk Hr;
    destruct k as [|[|[|[|k]]]]; cbn in Hk; try discriminate;
    injection Hk as <-; cbn [Nat.add] in Hr; rewrite Hr;
    cbn [In app shown]; tauto.
Qed.

(** X8. When the call of a step of the plan succeeds, the Generation Client
    returns the text of the reply unchanged, and that text is what the
    Orchestrator prints for the step. *)
Theorem generated_text_is_shown_unchanged (d : details) (t b : string)
    (rest : list string) (n k : nat) (p s : string) :
  let T := effective_temperature t in
  let run := generate_essay_content d {| stdin := t :: b :: rest; served := n |} in
  planned d b !! k = Some p ->
  remote (k + n) p (Some T) = Text s ->
  outcome_of (generate_response p T {| stdin := rest; served := k + n |})
    = Returned s
  /\ In (EvPrint (Fore.GREEN +:+ s)) (events_of run).
Proof.
  intros T run Hk Hr. subst run.
  rewrite generate_response_run, generate_essay_content_run.
  cbn [outcome_of events_of fst snd served]. rewrite Hr.
  split; [reflexivity|].
  right. now apply sections_show_text with (k := k) (p := p).
Qed.

Lemma feedback_and_refinement_run (rating comment : string)
    (rest : list string) (n : nat) :
  feedback_and_refinement {| stdin := rating :: comment :: rest; served := n |}
  = (Returned tt,
     {| stdin := if String.eqb (Py.strip rating) "5" then comment :: rest
                 else rest;
        served := n |},
     EvInput rating_prompt (Some rating)
       :: (if String.eqb (Py.strip rating) "5" then [EvPrint acknowledgment]
           else [EvInput comment_prompt (Some comment); EvPrint (echo comment)])).
Proof.
  clear float_of_string f0_3 remote.
  unfold feedback_and_refinement. rewrite bind_input.
  destruct (String.eqb (Py.strip rating) "5"); reflexivity.
Qed.

Lemma run_activity_complete (a1 a2 a3 a4 a5 a6 a7 a8 a9 t b rating comment : string)
    (rest : list string) (n : nat) (s0 : string) :
  let lines := a1 :: a2 :: a3 :: a4 :: a5 :: a6 :: a7 :: a8 :: a9
                 :: t :: b :: rating :: comment :: rest in
  let w1 := {| stdin := lines; served := S n |} in
  let d := collected a1 a2 a3 a4 a5 a6 a7 a8 a9 in
  let w3 := {| stdin := rating :: comment :: rest;
               served := S (S (S (intro_call d (S n)))) |} in
  remote n "ping" None = Text s0 ->
  run_activity {| stdin := lines; served := n |}
  = (Returned tt, world_of (feedback_and_refinement w3),
     EvPrint welcome :: EvGenerate "ping" None (Text s0)
       :: EvPrint (if Py.whitespace_only s0 then probe_warning else probe_verified)
       :: events_of (get_essay_details w1)
       ++ EvInput temperature_prompt (Some t)
       :: sections d (effective_temperature t) b (S n)
       ++ events_of (feedback_and_refinement w3)).
Proof.
  intros lines w1 d w3 H. subst lines w1 w3.
  unfold run_activity. rewrite bind_print.
  rewrite (bind_returned _ _ _ _ _ _
             (gemini_ready_check_answers {| stdin := _; served := n |} s0 H)).
  cbn [negb stdin served]. rewrite bind_ret.
  rewrite bind_get_essay_details. cbv zeta. fold d.
  rewrite (bind_returned _ _ _ _ _ _
             (generate_essay_content_run d t b (rating :: comment :: rest) (S n))).
  rewrite feedback_and_refinement_run.
  cbn [world_of events_of fst snd app]. reflexivity.
Qed.

(** X9. A complete session: with an accepted credential, a probe that is
    answered, and the nine answers, the temperature, the body style and the
    rating on standard input, the script returns (exit status 0) whatever
    the model replies to the sections.  Its remote calls are the probe and
    then the planned prompts, and the comment line is consumed exactly when
    the stripped rating is not "5". *)
Theorem complete_session (cred : option string)
    (a1 a2 a3 a4 a5 a6 a7 a8 a9 t b rating comment : string)
    (rest : list string) (n : nat) (s0 : string) :
  let w := {| stdin := a1 :: a2 :: a3 :: a4 :: a5 :: a6 :: a7 :: a8 :: a9
                        :: t :: b :: rating :: comment :: rest;
              served := n |} in
  let d := collected a1 a2 a3 a4 a5 a6 a7 a8 a9 in
  Py.startswith (Py.strip (default "" cred)) "AIza" = true ->
  remote n "ping" None = Text s0 ->
  outcome_of (main cred w) = Returned tt
  /\ exit_status (outcome_of (main cred w)) = 0%Z
  /\ world_of (main cred w)
     = {| stdin := if String.eqb (Py.strip rating) "5" then comment :: rest
                   else rest;
          served := S (S (S (intro_call d (S n)))) |}
  /\ requested (events_of (main cred w)) = "ping" :: planned d b.
Proof.
  intros w d Hcred Hping. subst w.
  rewrite (main_accepts cred _ Hcred).
  rewrite (run_activity_complete a1 a2 a3 a4 a5 a6 a7 a8 a9 t b rating comment
             rest n s0 Hping).
  fold d. rewrite feedback_and_refinement_run.
  cbn [outcome_of world_of events_of fst snd exit_status requested].
  repeat split.
  rewrite requested_app.
  destruct (get_essay_details_run a1 a2 a3 a4 a5 a6 a7 a8 a9
              (t :: b :: rating :: comment :: rest) (S n)) as (ev & -> & Hreq).
  cbn [events_of snd]. rewrite Hreq. cbn [app requested].
  rewrite requested_app, requested_sections.
  destruct (String.eqb (Py.strip rating) "5"); cbn [requested];
    now rewrite app_nil_r.
Qed.

(** X12. The Feedback Step at the end of input: with the rating as the last
    line it returns when the stripped rating is "5", and raises [EOFError]
    at the comment question otherwise, without echoing anything. *)
Theorem feedback_with_last_line (rating : string) (n : nat) :
  let run := feedback_and_refinement {| stdin := [rating]; served := n |} in
  (Py.strip rating = "5" ->
     run = (Returned tt, {| stdin := []; served := n |},
            [EvInput rating_prompt (Some rating); EvPrint acknowledgment]))
  /\ (Py.strip rating <> "5" ->
     run = (Raised eof, {| stdin := []; served := n |},
            [EvInput rating_prompt (Some rating); EvInput comment_prompt None])).
Proof.
  clear float_of_string f0_3 remote.
  intros run. subst run.
  unfold feedback_and_refinement. rewrite bind_input.
  destruct (String.eqb_spec (Py.strip rating) "5") as [E|E]; cbn [negb];
    split; intros H; try reflexivity; contradiction.
Qed.

(** *** Invariants of every run, by the structure of the script *)

Lemma exits_bind {A B} (c : Run A) (k : A -> Run B) :
  exits_with_one c -> (forall a, exits_with_one (k a)) ->
  exits_with_one (bind c k).
Proof.
  intros Hc Hk w code. unfold bind.
  destruct (c w) as [[[a|e] w1] ev1] eqn:E.
  - destruct (k a w1) as [[o w2] ev2] eqn:E2. cbn. intros ->.
    apply (Hk a w1 code). rewrite E2; reflexivity.
  - cbn. intros H. apply (Hc w code). injection H as ->; rewrite E; reflexivity.
Qed.

Lemma exits_try_except_Exception {A} (body : Run A) (handler : string -> Run A) :
  exits_with_one body -> (forall msg, exits_with_one (handler msg)) ->
  exits_with_one (try_except_Exception body handler).
Proof.
  intros Hb Hh w code. unfold try_except_Exception.
  destruct (body w) as [[[a|[cls msg|code']] w1] ev1] eqn:E.
  - cbn. discriminate.
  - destruct (handler msg w1) as [[o w2] ev2] eqn:E2. cbn. intros ->.
    apply (Hh msg w1 code). rewrite E2; reflexivity.
  - cbn. intros H. apply (Hb w code). injection H as ->; rewrite E; reflexivity.
Qed.

Lemma exits_try_except_ValueError {A} (body handler : Run A) :
  exits_with_one body -> exits_with_one handler ->
  exits_with_one (try_except_ValueError body handler).
Proof.
  intros Hb Hh w code. unfold try_except_ValueError.
  destruct (body w) as [[[a|[[] msg|code']] w1] ev1] eqn:E;
    try (cbn; discriminate).
  - destruct (handler w1) as [[o w2] ev2] eqn:E2. cbn. intros ->.
    apply (Hh w1 code). rewrite E2; reflexivity.
  - cbn. intros H. apply (Hb w code). injection H as ->; rewrite E; reflexivity.
Qed.

Lemma exits_ret {A} (a : A) : exits_with_one (ret a).
Proof. intros w code. discriminate. Qed.

Lemma exits_print (s : string) : exits_with_one (print s).
Proof. intros w code. discriminate. Qed.

Lemma exits_configure (key : string) : exits_with_one (configure key).
Proof. intros w code. discriminate. Qed.

Lemma exits_input (p : string) : exits_with_one (input p).
Proof. intros w code. unfold input. destruct (stdin w); discriminate. Qed.

Lemma exits_py_float (s : string) : exits_with_one (py_float s).
Proof.
  intros w code. unfold py_float. destruct (float_of_string s); discriminate.
Qed.

Lemma exits_generate_content (p : string) (T : option float) :
  exits_with_one (generate_content p T).
Proof.
  intros w code. unfold generate_content.
  destruct (remote (served w) p T); discriminate.
Qed.

Lemma exits_sys_exit_one {A} : exits_with_one (@sys_exit A 1%Z).
Proof. intros w code H. now injection H as <-. Qed.

Ltac exits_step :=
  first [ apply exits_bind
        | apply exits_try_except_Exception
        | apply exits_try_except_ValueError
        | apply exits_ret
        | apply exits_print
        | apply exits_configure
        | apply exits_input
        | apply exits_py_float
        | apply exits_generate_content
        | apply exits_sys_exit_one
        | match goal with
          | |- exits_with_one (if ?b then _ else _) => destruct b
          end
        | intro ].

Lemma exits_generate_response (p : string) (T : float) :
  exits_with_one (generate_response p T).
Proof. unfold generate_response. repeat exits_step. Qed.

Lemma exits_run_activity : exits_with_one run_activity.
Proof.
  unfold run_activity, gemini_ready_check, get_essay_details,
    generate_essay_content, feedback_and_refinement.
  cbv zeta.
  repeat first [apply exits_generate_response | exits_step].
Qed.

Lemma exits_main (cred : option string) : exits_with_one (main cred).
Proof.
  unfold main. cbv zeta.
  repeat first [apply exits_run_activity | exits_step].
Qed.

(** X10. Whatever the credential, the lines on standard input and the
    replies of the model, the exit status of the script is 0 or 1, and it is
    0 exactly when the script runs to its end. *)
Theorem exit_status_is_zero_or_one (cred : option string) (w : World) :
  (exit_status (outcome_of (main cred w)) = 0%Z
   \/ exit_status (outcome_of (main cred w)) = 1%Z)
  /\ (exit_status (outcome_of (main cred w)) = 0%Z
      <-> outcome_of (main cred w) = Returned tt).
Proof.
  pose proof (exits_main cred w) as H.
  destruct (outcome_of (main cred w)) as [[]|[cls msg|code]];
    cbn [exit_status].
  - split; [now left | tauto].
  - split; [now right | split; discriminate].
  - rewrite (H code eq_refl). split; [now right | split; discriminate].
Qed.

Lemma calls_weaken {A} (k k' : nat) (c : Run A) :
  (k <= k')%nat -> calls_at_most k c -> calls_at_most k' c.
Proof. intros Hk Hc w. specialize (Hc w). lia. Qed.

Lemma calls_bind {A B} (k1 k2 : nat) (c : Run A) (k : A -> Run B) :
  calls_at_most k1 c -> (forall a, calls_at_most k2 (k a)) ->
  calls_at_most (k1 + k2) (bind c k).
Proof.
  intros Hc Hk w. unfold bind. specialize (Hc w).
  destruct (c w) as [[[a|e] w1] ev1].
  - specialize (Hk a w1). destruct (k a w1) as [[o w2] ev2].
    cbn [events_of snd] in *. rewrite requested_app, List.length_app. lia.
  - cbn [events_of snd] in *. lia.
Qed.

Lemma calls_try_except_Exception {A} (k1 k2 : nat) (body : Run A)
    (handler : string -> Run A) :
  calls_at_most k1 body -> (forall msg, calls_at_most k2 (handler msg)) ->
  calls_at_most (k1 + k2) (try_except_Exception body handler).
Proof.
  intros Hb Hh w. unfold try_except_Exception. specialize (Hb w).
  destruct (body w) as [[[a|[cls msg|code]] w1] ev1].
  - cbn [events_of snd] in *. lia.
  - specialize (Hh msg w1). destruct (handler msg w1) as [[o w2] ev2].
    cbn [events_of snd] in *. rewrite requested_app, List.length_app. lia.
  - cbn [events_of snd] in *. lia.
Qed.

Lemma calls_try_except_ValueError {A} (k1 k2 : nat) (body handler : Run A) :
  calls_at_most k1 body -> calls_at_most k2 handler ->
  calls_at_most (k1 + k2) (try_except_ValueError body handler).
Proof.
  intros Hb Hh w. unfold try_except_ValueError. specialize (Hb w).
  destruct (body w) as [[[a|[[] msg|code]] w1] ev1];
    try (cbn [events_of snd] in *; lia).
  specialize (Hh w1). destruct (handler w1) as [[o w2] ev2].
  cbn [events_of snd] in *. rewrite requested_app, List.length_app. lia.
Qed.

Lemma calls_if {A} (k1 k2 : nat) (b : bool) (c1 c2 : Run A) :
  calls_at_most k1 c1 -> calls_at_most k2 c2 ->
  calls_at_most (Nat.max k1 k2) (if b then c1 else c2).
Proof.
  intros H1 H2. destruct b;
    [apply (calls_weaken k1) | apply (calls_weaken k2)]; auto; lia.
Qed.

Lemma calls_ret {A} (a : A) : calls_at_most 0 (ret a).
Proof. intros w. cbn. lia. Qed.

Lemma calls_print (s : string) : calls_at_most 0 (print s).
Proof. intros w. cbn. lia. Qed.

Lemma calls_configure (key : string) : calls_at_most 0 (configure key).
Proof. intros w. cbn. lia. Qed.

Lemma calls_sys_exit {A} (code : Z) : calls_at_most 0 (@sys_exit A code).
Proof. intros w. cbn. lia. Qed.

Lemma calls_input (p : string) : calls_at_most 0 (input p).
Proof. intros w. unfold input. destruct (stdin w); cbn; lia. Qed.

Lemma calls_py_float (s : string) : calls_at_most 0 (py_float s).
Proof.
  intros w. unfold py_float. destruct (float_of_string s); cbn; lia.
Qed.

Lemma calls_generate_content (p : string) (T : option float) :
  calls_at_most 1 (generate_content p T).
Proof.
  intros w. unfold generate_content.
  destruct (remote (served w) p T); cbn; lia.
Qed.

Ltac calls_step :=
  first [ eapply calls_bind
        | eapply calls_try_except_Exception
        | eapply calls_try_except_ValueError
        | eapply calls_if
        | apply calls_ret
        | apply calls_print
        | apply calls_configure
        | apply calls_sys_exit
        | apply calls_input
        | apply calls_py_float
        | apply calls_generate_content
        | intro ].

Lemma calls_generate_response (p : string) (T : float) :
  calls_at_most 1 (generate_response p T).
Proof.
  eapply calls_weaken; [|unfold generate_response; repeat calls_step].
  cbn. lia.
Qed.

Lemma calls_gemini_ready_check : calls_at_most 1 gemini_ready_check.
Proof.
  eapply calls_weaken; [|unfold gemini_ready_check; repeat calls_step].
  cbn. lia.
Qed.

Lemma calls_get_essay_details : calls_at_most 0 get_essay_details.
Proof.
  eapply calls_weaken; [|unfold get_essay_details; cbv zeta; repeat calls_step].
  cbn. lia.
Qed.

Lemma calls_generate_essay_content (d : details) :
  calls_at_most 4 (generate_essay_content d).
Proof.
  eapply calls_weaken;
    [|unfold generate_essay_content; cbv zeta;
      repeat first [apply calls_generate_response | calls_step]].
  cbn. lia.
Qed.

Lemma calls_feedback_and_refinement : calls_at_most 0 feedback_and_refinement.
Proof.
  eapply calls_weaken; [|unfold feedback_and_refinement; repeat calls_step].
  cbn. lia.
Qed.

Lemma calls_main (cred : option string) : calls_at_most 5 (main cred).
Proof.
  eapply calls_weaken;
    [|unfold main, run_activity; cbv zeta;
      repeat first [ apply calls_gemini_ready_check
                   | apply calls_get_essay_details
                   | apply calls_generate_essay_content
                   | apply calls_feedback_and_refinement
                   | calls_step ]].
  cbn. lia.
Qed.

(** X11. No retry: whatever the credential, the input and the replies, a
    run of the script makes at most five remote calls (the probe and at most
    four sections), the Orchestrator at most four, and the Parameter
    Collector and the Feedback Step none. *)
Theorem remote_calls_are_bounded (cred : option string) (d : details)
    (w : World) :
  (List.length (requested (events_of (main cred w))) <= 5)%nat
  /\ (List.length (requested (events_of (generate_essay_content d w))) <= 4)%nat
  /\ requested (events_of (get_essay_details w)) = []
  /\ requested (events_of (feedback_and_refinement w)) = [].
Proof.
  pose proof (calls_main cred w) as H1.
  pose proof (calls_generate_essay_content d w) as H2.
  pose proof (calls_get_essay_details w) as H3.
  pose proof (calls_feedback_and_refinement w) as H4.
  repeat split; auto.
  - destruct (requested (events_of (get_essay_details w)));
      [reflexivity | cbn in H3; lia].
  - destruct (requested (events_of (feedback_and_refinement w)));
      [reflexivity | cbn in H4; lia].
Qed.

(** X13. The probe gate: every run with an accepted credential starts by
    configuring the client with the stripped key, greeting the user and
    calling the model with the prompt "ping" and no generation setting,
    before any line is read. *)
Theorem accepted_run_starts_with_probe (cred : option string) (w : World) :
  Py.startswith (Py.strip (default "" cred)) "AIza" = true ->
  exists ev,
    events_of (main cred w)
    = EvConfigure (Py.strip (default "" cred))
        :: EvPrint welcome
        :: EvGenerate "ping" None (remote (served w) "ping" None)
        :: ev.
Proof.
  intros H. rewrite (main_accepts cred w H).
  unfold run_activity. rewrite bind_print. unfold bind at 1.
  destruct (remote (served w) "ping" None) as [s|msg] eqn:E.
  - rewrite (gemini_ready_check_answers w s E).
    destruct (bind (if negb true then _ else _) _ _) as [[o w2] ev2].
    eexists. reflexivity.
  - rewrite (gemini_ready_check_fails w msg E).
    destruct (bind (if negb false then _ else _) _ _) as [[o w2] ev2].
    eexists. reflexivity.
Qed.

End Script.

(** ** The properties on concrete runs *)

Example strip_both_sides : Py.strip "  AIza key  " = "AIza key".
Proof. reflexivity. Qed.

Example strip_tab_and_newline :
  Py.strip (String "009" ("5" +:+ Py.nl)) = "5".
Proof. reflexivity. Qed.

Example strip_no_break_space :
  Py.strip (Py.nbsp +:+ "AIzaSyDemoKey" +:+ Py.ideographic_space)
  = "AIzaSyDemoKey"
  /\ Py.strip ("5" +:+ Py.nbsp) = "5"
  /\ Py.whitespace_only (Py.ideographic_space +:+ " " +:+ Py.nbsp) = true.
Proof. repeat split. Qed.

(** "voil\u00e0" ends with the byte A0 of its last letter (C3 A0), which is
    not the no-break space (C2 A0). *)
Example strip_keeps_letters :
  let voila := "voil" +:+ String "195"%char (String "160"%char EmptyString) in
  Py.strip (voila +:+ Py.nbsp) = voila /\ Py.strip voila = voila.
Proof. split; reflexivity. Qed.

Example lower_mixed_case : Py.lower "FuLL Draft 9" = "full draft 9".
Proof. reflexivity. Qed.

Example startswith_prefix :
  Py.startswith "AIzaSy" "AIza" = true /\ Py.startswith "AIz" "AIza" = false.
Proof. split; reflexivity. Qed.

Example length_of_choice_table :
  map length_of_choice ["1"; "2"; "3"; "4"; "5"; ""; " 2"]
  = ["300"; "900"; "1200"; "2000"; "300"; "300"; "300"].
Proof. reflexivity. Qed.

Example demo_temperatures :
  Demo.float_of_string "0.7" = Some (Qmake 7 10)
  /\ Demo.float_of_string "warm" = None
  /\ Demo.float_of_string "." = None
  /\ Demo.float_of_string "" = None.
Proof. repeat split. Qed.

Lemma generation_failure_is_fail_soft_witness :
  let d := collected "climate policy" "Argumentative" "2" "College professors"
             "carbon tax" "For" "IPCC 2023" "Formal" "yes" in
  let run := generate_essay_content Q Demo.float_of_string Demo.f0_3
               (Demo.remote [2%nat]) d
               {| stdin := ["0.7"; "Full"]; served := 0 |} in
  planned d "Full" !! 2%nat = Some (body_prompt d)
  /\ Demo.remote [2%nat] 2 (body_prompt d) (Some (Qmake 7 10))
     = Fails "503 Service Unavailable"
  /\ outcome_of Q run = Returned tt
  /\ requested Q (events_of Q run) = planned d "Full"
  /\ In (EvPrint Q (Fore.GREEN +:+ "Error: 503 Service Unavailable"))
        (events_of Q run).
Proof.
  intros d run.
  split; [reflexivity|]. split; [reflexivity|].
  apply (generation_failure_is_fail_soft Q Demo.float_of_string Demo.f0_3
           (Demo.remote [2%nat]) d "0.7" "Full" [] 0 2 (body_prompt d)
           "503 Service Unavailable"); reflexivity.
Defined.

Lemma probe_failure_exits_witness :
  let w := {| stdin := Demo.lines; served := 0 |} in
  let run := main Q Demo.float_of_string Demo.f0_3 (Demo.remote [0%nat])
               (Some "AIzaSyDemoKey") w in
  Demo.remote [0%nat] 0 "ping" None = Fails "503 Service Unavailable"
  /\ exit_status (outcome_of Q run) = 1%Z
  /\ stdin (world_of Q run) = Demo.lines.
Proof.
  intros w run. split; [reflexivity|].
  destruct (probe_failure_exits Q Demo.float_of_string Demo.f0_3
              (Demo.remote [0%nat]) (Some "AIzaSyDemoKey") w
              "503 Service Unavailable" eq_refl)
    as (_ & _ & _ & Hexit & Hin & _).
  exact (conj Hexit Hin).
Defined.

Lemma invalid_credential_exits_witness :
  let w := {| stdin := Demo.lines; served := 0 |} in
  Py.startswith (Py.strip "sk-invalid") "AIza" = false
  /\ exit_status
       (outcome_of Q (main Q Demo.float_of_string Demo.f0_3 (Demo.remote [])
                        (Some "sk-invalid") w)) = 1%Z.
Proof.
  intros w. split; [reflexivity|].
  apply (invalid_credential_exits Q Demo.float_of_string Demo.f0_3
           (Demo.remote []) (Some "sk-invalid") w).
  right. exists "sk-invalid". split; reflexivity.
Defined.

(** The claim C3 as stated, on the raw value: " AIzaSyDemoKey" does not
    start with "AIza", and yet the session runs to its end: the key is
    configured, the probe and the four sections are requested, all the lines
    of the user are read, and the exit status is 0. *)
Lemma credential_with_leading_space_runs :
  let run := main Q Demo.float_of_string Demo.f0_3 (Demo.remote [])
               (Some " AIzaSyDemoKey")
               {| stdin := Demo.lines; served := 0 |} in
  Py.startswith " AIzaSyDemoKey" "AIza" = false
  /\ exit_status (outcome_of Q run) = 0%Z
  /\ hd_error (events_of Q run) = Some (EvConfigure Q "AIzaSyDemoKey")
  /\ List.length (requested Q (events_of Q run)) = 5%nat
  /\ stdin (world_of Q run) = [].
Proof. vm_compute. repeat split. Qed.

Lemma word_count_selector_witness :
  length <$> returned
    (outcome_of Q (get_essay_details Q
       {| stdin := [ "climate policy"; "Argumentative"; "7";
                     "College professors"; "carbon tax"; "For"; "IPCC 2023";
                     "Formal"; "no" ];
          served := 0 |})) = Some "300".
Proof.
  refine (proj1 (word_count_selector Q "climate policy" "Argumentative" "7"
                   "College professors" "carbon tax" "For" "IPCC 2023"
                   "Formal" "no" [] 0 _)).
  vm_compute. intros H.
  repeat (inversion H as [|? ? ? H']; subst; clear H; rename H' into H).
Defined.

Lemma unparsable_temperature_defaults_witness :
  let d := collected "climate policy" "Argumentative" "2" "College professors"
             "carbon tax" "For" "IPCC 2023" "Formal" "yes" in
  let run := generate_essay_content Q Demo.float_of_string Demo.f0_3
               (Demo.remote []) d
               {| stdin := ["warm"; "Full"]; served := 0 |} in
  Demo.float_of_string "warm" = None
  /\ outcome_of Q run = Returned tt
  /\ events_of Q run
     = EvInput Q temperature_prompt (Some "warm")
         :: sections Q (Demo.remote []) d Demo.f0_3 "Full" 0.
Proof.
  intros d run. split; [reflexivity|].
  destruct (unparsable_temperature_defaults Q Demo.float_of_string Demo.f0_3
              (Demo.remote []) d "warm" "Full" [] 0 eq_refl)
    as (Ho & Hev & _).
  exact (conj Ho Hev).
Defined.

Lemma body_mode_branch_witness :
  let d := collected "climate policy" "Argumentative" "2" "College professors"
             "carbon tax" "For" "IPCC 2023" "Formal" "no" in
  let run := generate_essay_content Q Demo.float_of_string Demo.f0_3
               (Demo.remote []) d
               {| stdin := ["0.7"; ""]; served := 0 |} in
  requested Q (events_of Q run)
  = [intro_prompt d; step_template "climate policy"; conclusion_prompt d].
Proof.
  intros d run.
  destruct (body_mode_branch Q Demo.float_of_string Demo.f0_3 (Demo.remote [])
              d "0.7" "" [] 0) as (_ & _ & _ & Hstep & Hempty).
  exact (Hstep Hempty).
Defined.

Lemma feedback_on_rating_witness :
  let rating := "5" +:+ Py.nbsp in
  Py.strip rating = "5"
  /\ feedback_and_refinement Q
       {| stdin := [rating; "shorter sentences"]; served := 0 |}
     = (Returned tt, {| stdin := ["shorter sentences"]; served := 0 |},
        [EvInput Q rating_prompt (Some rating); EvPrint Q acknowledgment]).
Proof.
  intros rating. split; [reflexivity|].
  exact (proj1 (feedback_on_rating Q rating "shorter sentences" [] 0) eq_refl).
Defined.

(** The claim C7 as stated: the rating " 5" is not exactly "5", and yet the
    acknowledgment is printed and the comment line is left unread. *)
Lemma padded_rating_is_acknowledged :
  " 5" <> "5"
  /\ feedback_and_refinement Q
       {| stdin := [" 5"; "shorter sentences"]; served := 0 |}
     = (Returned tt, {| stdin := ["shorter sentences"]; served := 0 |},
        [EvInput Q rating_prompt (Some " 5"); EvPrint Q acknowledgment]).
Proof. split; [discriminate | reflexivity]. Qed.


Lemma credential_is_stripped_witness :
  let w := {| stdin := Demo.lines; served := 0 |} in
  let run cred := main Q Demo.float_of_string Demo.f0_3 (Demo.remote []) cred w in
  let blanks := Py.ideographic_space +:+ " " +:+ Py.nbsp in
  let padded := Py.nbsp +:+ "AIzaSyDemoKey" +:+ Py.ideographic_space in
  Py.whitespace_only blanks = true
  /\ Py.strip padded = Py.strip "AIzaSyDemoKey"
  /\ hd_error (events_of Q (run (Some padded)))
     = Some (EvConfigure Q "AIzaSyDemoKey")
  /\ run (Some padded) = run (Some "AIzaSyDemoKey")
  /\ run (Some blanks) = run None
  /\ exit_status (outcome_of Q (run (Some blanks))) = 1%Z
  /\ Py.startswith "AIzaSyDemoKey" "AIza" = true.
Proof.
  intros w run blanks padded.
  assert (H1 : Py.whitespace_only blanks = true) by reflexivity.
  assert (H2 : Py.strip padded = Py.strip "AIzaSyDemoKey") by reflexivity.
  assert (H3 : hd_error (events_of Q (run (Some padded)))
               = Some (EvConfigure Q "AIzaSyDemoKey"))
    by (vm_compute; reflexivity).
  destruct (credential_is_stripped Q Demo.float_of_string Demo.f0_3
              (Demo.remote []) blanks padded "AIzaSyDemoKey"
              (Some padded) "AIzaSyDemoKey" w H1 H2 H3)
    as (E12 & Enone & _ & Hexit & _ & _ & Hpre).
  exact (conj H1 (conj H2 (conj H3 (conj E12 (conj Enone (conj Hexit Hpre)))))).
Defined.

Lemma probe_passes_on_any_reply_witness :
  let reply := Py.ideographic_space in
  gemini_ready_check Q (fun _ _ _ => Text reply)
    {| stdin := Demo.lines; served := 0 |}
  = (Returned true, {| stdin := Demo.lines; served := 1 |},
     [EvGenerate Q "ping" None (Text reply); EvPrint Q probe_warning]).
Proof.
  intros reply.
  exact (proj1 (probe_passes_on_any_reply Q (fun _ _ _ => Text reply)
                  {| stdin := Demo.lines; served := 0 |} reply eq_refl)).
Defined.

Lemma collector_needs_nine_lines_witness :
  (List.length ["climate policy"; "Argumentative"] < 9)%nat
  /\ outcome_of Q (get_essay_details Q
       {| stdin := ["climate policy"; "Argumentative"]; served := 0 |})
     = Raised eof.
Proof.
  assert (H : (List.length ["climate policy"; "Argumentative"] < 9)%nat)
    by (cbn; lia).
  split; [exact H|].
  exact (proj1 (collector_needs_nine_lines Q
                  ["climate policy"; "Argumentative"] 0 H)).
Defined.

Lemma parsed_temperature_is_used_witness :
  let d := collected "climate policy" "Argumentative" "2" "College professors"
             "carbon tax" "For" "IPCC 2023" "Formal" "yes" in
  Demo.float_of_string "0.7" = Some (Qmake 7 10)
  /\ events_of Q (generate_essay_content Q Demo.float_of_string Demo.f0_3
                    (Demo.remote []) d
                    {| stdin := ["0.7"; "Full"]; served := 0 |})
     = EvInput Q temperature_prompt (Some "0.7")
         :: sections Q (Demo.remote []) d (Qmake 7 10) "Full" 0.
Proof.
  intros d. split; [reflexivity|].
  exact (proj1 (parsed_temperature_is_used Q Demo.float_of_string Demo.f0_3
                  (Demo.remote []) d "0.7" "Full" [] 0 (Qmake 7 10) eq_refl)).
Defined.

Lemma length_matters_to_full_draft_only_witness :
  let d := collected "climate policy" "Argumentative" "2" "College professors"
             "carbon tax" "For" "IPCC 2023" "Formal" "yes" in
  let w := {| stdin := ["0.7"; "step"]; served := 0 |} in
  generate_essay_content Q Demo.float_of_string Demo.f0_3 (Demo.remote [])
    (with_length d "2000") w
  = generate_essay_content Q Demo.float_of_string Demo.f0_3 (Demo.remote [])
      d w.
Proof.
  intros d w.
  apply (length_matters_to_full_draft_only Q Demo.float_of_string Demo.f0_3
           (Demo.remote []) d "2000" "0.7" "step" [] 0).
  intros [r [H|H]]; discriminate H.
Defined.


Lemma generated_text_is_shown_unchanged_witness :
  let d := collected "climate policy" "Argumentative" "2" "College professors"
             "carbon tax" "For" "IPCC 2023" "Formal" "no" in
  let run := generate_essay_content Q Demo.float_of_string Demo.f0_3
               (Demo.remote []) d
               {| stdin := ["0.7"; "step"]; served := 0 |} in
  planned d "step" !! 1%nat = Some (step_prompt d)
  /\ In (EvPrint Q (Fore.GREEN +:+ "Text for: " +:+ step_prompt d))
        (events_of Q run).
Proof.
  intros d run. split; [reflexivity|].
  refine (proj2 (generated_text_is_shown_unchanged Q Demo.float_of_string
                   Demo.f0_3 (Demo.remote []) d "0.7" "step" [] 0 1
                   (step_prompt d) ("Text for: " +:+ step_prompt d) _ _));
    reflexivity.
Defined.

Lemma complete_session_witness :
  let rating := "5" +:+ Py.nbsp in
  let run := main Q Demo.float_of_string Demo.f0_3
               (Demo.remote [1%nat; 2%nat; 3%nat; 4%nat])
               (Some "AIzaSyDemoKey")
               {| stdin := [ "climate policy"; "Argumentative"; "2";
                             "College professors"; "carbon tax"; "For";
                             "IPCC 2023"; "Formal"; "yes"; "0.7"; "Full";
                             rating; "unread" ];
                  served := 0 |} in
  Py.startswith (Py.strip (default "" (Some "AIzaSyDemoKey"))) "AIza" = true
  /\ Demo.remote [1%nat; 2%nat; 3%nat; 4%nat] 0 "ping" None = Text "Text for: ping"
  /\ exit_status (outcome_of Q run) = 0%Z
  /\ world_of Q run = {| stdin := ["unread"]; served := 5 |}.
Proof.
  intros rating run.
  split; [reflexivity|]. split; [reflexivity|].
  destruct (complete_session Q Demo.float_of_string Demo.f0_3
              (Demo.remote [1%nat; 2%nat; 3%nat; 4%nat]) (Some "AIzaSyDemoKey")
              "climate policy" "Argumentative" "2" "College professors"
              "carbon tax" "For" "IPCC 2023" "Formal" "yes" "0.7" "Full" rating
              "unread" [] 0 "Text for: ping" eq_refl eq_refl)
    as (_ & Hexit & Hworld & _).
  exact (conj Hexit Hworld).
Defined.

Lemma feedback_with_last_line_witness :
  Py.strip "4" <> "5"
  /\ feedback_and_refinement Q {| stdin := ["4"]; served := 0 |}
     = (Raised eof, {| stdin := []; served := 0 |},
        [EvInput Q rating_prompt (Some "4"); EvInput Q comment_prompt None]).
Proof.
  assert (H : Py.strip "4" <> "5") by discriminate.
  split; [exact H|].
  exact (proj2 (feedback_with_last_line Q "4" 0) H).
Defined.

Lemma accepted_run_starts_with_probe_witness :
  let key := "AIzaKey" +:+ Py.nbsp in
  Py.startswith (Py.strip (default "" (Some key))) "AIza" = true
  /\ exists ev,
       events_of Q (main Q Demo.float_of_string Demo.f0_3 (Demo.remote [0%nat])
                      (Some key) {| stdin := []; served := 0 |})
       = EvConfigure Q "AIzaKey" :: EvPrint Q welcome
           :: EvGenerate Q "ping" None (Fails "503 Service Unavailable") :: ev.
Proof.
  intros key. split; [reflexivity|].
  exact (accepted_run_starts_with_probe Q Demo.float_of_string Demo.f0_3
           (Demo.remote [0%nat]) (Some key)
           {| stdin := []; served := 0 |} eq_refl).
Defined.
